(** * reddit-mcp: the tool catalog and the dispatcher of [reddit_mcp/server.py]

    A shallow embedding of [list_tools], [call_tool] and
    [initialize_reddit_client], and the properties of the dispatch contract
    and of start-up proved about them.

    Layout:
    - [Py]      the Python values, exceptions and effects the handler touches;
    - [Mcp]     the records of [mcp.types] the handler builds;
    - [Server]  the catalog and the dispatcher of [reddit_mcp.server];
    - [Startup] the initialization of the module's client handle;
    - the theorems. *)

From Stdlib Require Import ZArith String Ascii List.
From Stdlib Require Import Floats.SpecFloat.
From stdpp Require Import base option list strings gmap pretty.

Set Warnings "-register-all".
Local Open Scope string_scope.

(* ===================================================================== *)
(** * Python values and effects *)
(* ===================================================================== *)

Module Py.

(** The values that travel through the handler: what a JSON document decodes
    to ([None], [bool], [int], [float], [str], [list], [dict] with [str]
    keys, insertion ordered).  A [str] is held as its UTF-8 bytes, a [float]
    as the IEEE 754 value it denotes. *)
Inductive pyval : Type :=
| PyNone
| PyBool (b : bool)
| PyInt (z : Z)
| PyFloat (f : spec_float)
| PyStr (s : string)
| PyList (items : list pyval)
| PyDict (fields : list (string * pyval)).

(** An exception object of class [Exception] or below: what [except
    Exception] catches.  Only its class name and [str(e)] are observed. *)
Record pyexn : Type := PyExn { exn_class : string; exn_str : string }.

(** The outcome of evaluating an expression: a value, or a raised
    exception. *)
Inductive result (A : Type) : Type :=
| Ok (a : A)
| Raise (e : pyexn).
Arguments Ok {A} a.
Arguments Raise {A} e.

(** [type(v).__name__]. *)
Definition type_name (v : pyval) : string :=
  match v with
  | PyNone => "NoneType"
  | PyBool _ => "bool"
  | PyInt _ => "int"
  | PyFloat _ => "float"
  | PyStr _ => "str"
  | PyList _ => "list"
  | PyDict _ => "dict"
  end.

(** [arguments.get(key, dflt)] on a value of type [dict[str, Any] | None];
    [arguments.get(key)] is [arguments.get(key, None)].  On [None] the
    attribute lookup raises [AttributeError]; on a dict the stored value is
    returned when the key is there (also when that value is [None]) and
    [dflt] otherwise. *)
Definition AttributeError_get : pyexn :=
  PyExn "AttributeError" "'NoneType' object has no attribute 'get'".

Definition get (arguments : option (gmap string pyval)) (key : string)
    (dflt : pyval) : result pyval :=
  match arguments with
  | Some d => Ok (default dflt (d !! key))
  | None => Raise AttributeError_get
  end.

(** The line feed of the f-strings. *)
Definition nl : string := String "010"%char EmptyString.

(** Number of code points of a UTF-8 string: the bytes that are not
    continuation bytes [10xxxxxx]. *)
Definition is_continuation (a : ascii) : bool :=
  match a with
  | Ascii _ _ _ _ _ _ false true => true
  | _ => false
  end.

Fixpoint str_len (s : string) : nat :=
  match s with
  | EmptyString => 0
  | String a rest =>
      if is_continuation a then str_len rest else S (str_len rest)
  end.

(** [len(v)]. *)
Definition len (v : pyval) : result nat :=
  match v with
  | PyList items => Ok (length items)
  | PyDict fields => Ok (length fields)
  | PyStr s => Ok (str_len s)
  | _ => Raise (PyExn "TypeError"
                  ("object of type '" +:+ type_name v +:+ "' has no len()"))
  end.

(** The two library functions the handler leaves to the interpreter:
    [json.dumps(v, indent=2, default=str)], which may raise, and [repr] of
    the values whose text is not fixed by a one-line rule (floats, lists,
    dicts). *)
Class Runtime : Type := {
  json_dumps : pyval -> result string;
  repr_compound : pyval -> string
}.

(** [str(v)], which is also what an f-string field [{v}] inserts. *)
Definition str `{Runtime} (v : pyval) : string :=
  match v with
  | PyNone => "None"
  | PyBool true => "True"
  | PyBool false => "False"
  | PyInt z => pretty z
  | PyStr s => s
  | PyFloat _ | PyList _ | PyDict _ => repr_compound v
  end.

(** What the handler does to the world: it calls the collaborator and it
    writes log records.  [call] is the type of collaborator calls. *)
Inductive event (call : Type) : Type :=
| Invoke (c : call)
| LogError (line : string).
Arguments Invoke {call} c.
Arguments LogError {call} line.

(** A computation: the events it emitted, in order, and its outcome. *)
Definition M (call A : Type) : Type := (list (event call) * result A)%type.

Definition ret {call A} (a : A) : M call A := ([], Ok a).

Definition bind {call A B} (m : M call A) (k : A -> M call B) : M call B :=
  match m with
  | (tr, Ok a) => let '(tr', r) := k a in ((tr ++ tr')%list, r)
  | (tr, Raise e) => (tr, Raise e)
  end.

(** An effect-free expression that may raise. *)
Definition lift {call A} (r : result A) : M call A := ([], r).

(** A call of the collaborator with its outcome. *)
Definition invoke {call A} (c : call) (r : result A) : M call A :=
  ([Invoke c], r).

(** [logger.error(line)]. *)
Definition logger_error {call} (line : string) : M call unit :=
  ([LogError line], Ok tt).

(** [try: body except Exception as e: handler(e)]. *)
Definition try_except {call A} (body : M call A) (handler : pyexn -> M call A)
    : M call A :=
  match body with
  | (tr, Ok a) => (tr, Ok a)
  | (tr, Raise e) => let '(tr', r) := handler e in ((tr ++ tr')%list, r)
  end.

Definition trace {call A} (m : M call A) : list (event call) := fst m.
Definition outcome {call A} (m : M call A) : result A := snd m.

(** The collaborator calls of a trace, in order. *)
Definition calls {call} (tr : list (event call)) : list call :=
  omap (fun ev => match ev with Invoke c => Some c | LogError _ => None end) tr.

(** The log lines of a trace, in order. *)
Definition log_lines {call} (tr : list (event call)) : list string :=
  omap (fun ev => match ev with LogError l => Some l | Invoke _ => None end) tr.

End Py.

Declare Scope py_scope.
Delimit Scope py_scope with py.
Notation "x <- m ;; k" := (Py.bind m (fun x => k))
  (at level 100, m at next level, right associativity) : py_scope.
Notation "m ;;; k" := (Py.bind m (fun _ => k))
  (at level 100, right associativity) : py_scope.

Local Open Scope py_scope.

(* ===================================================================== *)
(** * The records of [mcp.types] *)
(* ===================================================================== *)

Module Mcp.
Import Py.

Record TextContent : Type := mkTextContent { type : string; text : string }.

(** [isError] is not set by the handler and keeps the default [False] of
    the class. *)
Record CallToolResult : Type :=
  mkCallToolResult { content : list TextContent; isError : bool }.

Record Tool : Type :=
  mkTool { name : string; description : string; inputSchema : pyval }.

Record ListToolsResult : Type := mkListToolsResult { tools : list Tool }.

(** [CallToolResult(content=[TextContent(type="text", text=t)])]. *)
Definition text_result (t : string) : CallToolResult :=
  {| content := [ {| type := "text"; text := t |} ]; isError := false |}.

End Mcp.

(* ===================================================================== *)
(** * [reddit_mcp/server.py] *)
(* ===================================================================== *)

Module Server.
Import Py Mcp.

(** ** The collaborator

    [RedditClient] lives in [reddit_mcp/reddit_client.py]; the server uses
    four of its methods.  Each takes the values the handler read from the
    arguments and returns a value or raises. *)
Record RedditClient : Type := {
  search_posts :
    forall (subreddit_name query limit sort time_filter : pyval), result pyval;
  get_post_details : forall (post_id : pyval), result pyval;
  get_subreddit_info : forall (subreddit_name : pyval), result pyval;
  get_hot_posts : forall (subreddit_name limit : pyval), result pyval
}.

(** A method call on the collaborator with its actual arguments, as the
    trace records it. *)
Inductive client_call : Type :=
| SearchPosts (subreddit_name query limit sort time_filter : pyval)
| GetPostDetails (post_id : pyval)
| GetSubredditInfo (subreddit_name : pyval)
| GetHotPosts (subreddit_name limit : pyval).

(** What the collaborator answers to a call. *)
Definition answer (client : RedditClient) (c : client_call) : result pyval :=
  match c with
  | SearchPosts subreddit_name query limit sort time_filter =>
      search_posts client subreddit_name query limit sort time_filter
  | GetPostDetails post_id => get_post_details client post_id
  | GetSubredditInfo subreddit_name => get_subreddit_info client subreddit_name
  | GetHotPosts subreddit_name limit => get_hot_posts client subreddit_name limit
  end.

(** Performing the call: it is recorded, and its answer is the outcome. *)
Definition perform (client : RedditClient) (c : client_call)
    : M client_call pyval :=
  invoke c (answer client c).

Definition Handler (A : Type) : Type := M client_call A.

(** ** [list_tools] *)

Definition search_reddit_posts_schema : pyval :=
  PyDict [
    ("type", PyStr "object");
    ("properties", PyDict [
      ("subreddit", PyDict [
        ("type", PyStr "string");
        ("description",
         PyStr "The name of the subreddit to search in (without r/)") ]);
      ("query", PyDict [
        ("type", PyStr "string");
        ("description", PyStr "The search query") ]);
      ("limit", PyDict [
        ("type", PyStr "integer");
        ("description",
         PyStr "Number of posts to return (default: 10, max: 100)");
        ("default", PyInt 10);
        ("minimum", PyInt 1);
        ("maximum", PyInt 100) ]);
      ("sort", PyDict [
        ("type", PyStr "string");
        ("description", PyStr "Sort method for search results");
        ("enum", PyList [PyStr "relevance"; PyStr "hot"; PyStr "top";
                         PyStr "new"; PyStr "comments"]);
        ("default", PyStr "relevance") ]);
      ("time_filter", PyDict [
        ("type", PyStr "string");
        ("description", PyStr "Time filter for search results");
        ("enum", PyList [PyStr "all"; PyStr "day"; PyStr "week";
                         PyStr "month"; PyStr "year"]);
        ("default", PyStr "all") ]) ]);
    ("required", PyList [PyStr "subreddit"; PyStr "query"]) ].

Definition get_reddit_post_details_schema : pyval :=
  PyDict [
    ("type", PyStr "object");
    ("properties", PyDict [
      ("post_id", PyDict [
        ("type", PyStr "string");
        ("description", PyStr "The Reddit post ID") ]) ]);
    ("required", PyList [PyStr "post_id"]) ].

Definition get_subreddit_info_schema : pyval :=
  PyDict [
    ("type", PyStr "object");
    ("properties", PyDict [
      ("subreddit", PyDict [
        ("type", PyStr "string");
        ("description", PyStr "The name of the subreddit (without r/)") ]) ]);
    ("required", PyList [PyStr "subreddit"]) ].

Definition get_hot_reddit_posts_schema : pyval :=
  PyDict [
    ("type", PyStr "object");
    ("properties", PyDict [
      ("subreddit", PyDict [
        ("type", PyStr "string");
        ("description", PyStr "The name of the subreddit (without r/)") ]);
      ("limit", PyDict [
        ("type", PyStr "integer");
        ("description",
         PyStr "Number of posts to return (default: 10, max: 100)");
        ("default", PyInt 10);
        ("minimum", PyInt 1);
        ("maximum", PyInt 100) ]) ]);
    ("required", PyList [PyStr "subreddit"]) ].

(** List available Reddit MCP tools. *)
Definition list_tools : Handler ListToolsResult :=
  let tools := [
    {| name := "search_reddit_posts";
       description := "Search for posts in a specific subreddit";
       inputSchema := search_reddit_posts_schema |};
    {| name := "get_reddit_post_details";
       description := "Get detailed information about a specific Reddit post";
       inputSchema := get_reddit_post_details_schema |};
    {| name := "get_subreddit_info";
       description := "Get information about a subreddit";
       inputSchema := get_subreddit_info_schema |};
    {| name := "get_hot_reddit_posts";
       description := "Get hot posts from a subreddit";
       inputSchema := get_hot_reddit_posts_schema |} ] in
  ret {| tools := tools |}.

(** ** [call_tool] *)

Definition not_initialized_text : string :=
  "Error: Reddit client not initialized. Please check your configuration and ensure REDDIT_CLIENT_ID, REDDIT_CLIENT_SECRET, and REDDIT_USER_AGENT are set.".

Section CallTool.
Context `{Runtime}.

(** The body of the [try] block, with the collaborator at hand. *)
Definition dispatch (client : RedditClient) (name : string)
    (arguments : option (gmap string pyval)) : Handler CallToolResult :=
  if String.eqb name "search_reddit_posts" then
    subreddit <- lift (get arguments "subreddit" PyNone);;
    query <- lift (get arguments "query" PyNone);;
    limit <- lift (get arguments "limit" (PyInt 10));;
    sort <- lift (get arguments "sort" (PyStr "relevance"));;
    time_filter <- lift (get arguments "time_filter" (PyStr "all"));;
    posts <- perform client
               (SearchPosts subreddit query limit sort time_filter);;
    n <- lift (len posts);;
    dumped <- lift (json_dumps posts);;
    ret (text_result
           ("Found " +:+ pretty n +:+ " posts in r/" +:+ str subreddit
            +:+ " for query: '" +:+ str query +:+ "'" +:+ nl +:+ nl
            +:+ dumped))
  else if String.eqb name "get_reddit_post_details" then
    post_id <- lift (get arguments "post_id" PyNone);;
    post_details <- perform client (GetPostDetails post_id);;
    dumped <- lift (json_dumps post_details);;
    ret (text_result
           ("Post details for " +:+ str post_id +:+ ":" +:+ nl +:+ nl
            +:+ dumped))
  else if String.eqb name "get_subreddit_info" then
    subreddit <- lift (get arguments "subreddit" PyNone);;
    subreddit_info <- perform client (GetSubredditInfo subreddit);;
    dumped <- lift (json_dumps subreddit_info);;
    ret (text_result
           ("Subreddit information for r/" +:+ str subreddit +:+ ":"
            +:+ nl +:+ nl +:+ dumped))
  else if String.eqb name "get_hot_reddit_posts" then
    subreddit <- lift (get arguments "subreddit" PyNone);;
    limit <- lift (get arguments "limit" (PyInt 10));;
    posts <- perform client (GetHotPosts subreddit limit);;
    dumped <- lift (json_dumps posts);;
    ret (text_result
           ("Hot posts from r/" +:+ str subreddit +:+ ":" +:+ nl +:+ nl
            +:+ dumped))
  else
    ret (text_result ("Unknown tool: " +:+ name)).

(** The [except Exception as e] clause. *)
Definition on_exception (name : string) (e : pyexn) : Handler CallToolResult :=
  logger_error ("Error calling tool " +:+ name +:+ ": " +:+ exn_str e);;;
  ret (text_result ("Error: " +:+ exn_str e)).

(** Handle tool calls.  [reddit_client] is the module's global, read
    once. *)
Definition call_tool (reddit_client : option RedditClient) (name : string)
    (arguments : option (gmap string pyval)) : Handler CallToolResult :=
  match reddit_client with
  | None => ret (text_result not_initialized_text)
  | Some client =>
      try_except (dispatch client name arguments) (on_exception name)
  end.

End CallTool.

End Server.

(* ===================================================================== *)
(** * The vocabulary of the dispatch contract *)
(* ===================================================================== *)

Module Contract.
Import Py Mcp Server.

(** The four tool names of the contract. *)
Definition known_tools : list string :=
  ["search_reddit_posts"; "get_reddit_post_details";
   "get_subreddit_info"; "get_hot_reddit_posts"].

(** The descriptors [list_tools] answers with. *)
Definition catalog : list Tool :=
  match outcome list_tools with
  | Ok r => tools r
  | Raise _ => []
  end.

(** Reading a JSON-schema value. *)
Definition dict_field (key : string) (v : pyval) : option pyval :=
  match v with
  | PyDict fields =>
      snd <$> List.find (fun kv => String.eqb (fst kv) key) fields
  | _ => None
  end.

Definition as_str (v : pyval) : option string :=
  match v with
  | PyStr s => Some s
  | _ => None
  end.

(** The [required] array of a schema. *)
Definition required_names (schema : pyval) : list string :=
  match dict_field "required" schema with
  | Some (PyList items) => omap as_str items
  | _ => []
  end.

Definition find_tool (tool : string) : option Tool :=
  List.find (fun t => String.eqb (name t) tool) catalog.

(** The required parameters the catalog declares for a tool. *)
Definition required_of (tool : string) : list string :=
  match find_tool tool with
  | Some t => required_names (inputSchema t)
  | None => []
  end.

(** An attribute ([default], [minimum], [maximum], ...) the catalog
    declares for a parameter of a tool. *)
Definition declared (tool param attr : string) : option pyval :=
  t ← find_tool tool;
  props ← dict_field "properties" (inputSchema t);
  prop ← dict_field param props;
  dict_field attr prop.

(** The value a collaborator call carries for a schema parameter: the
    handler passes [subreddit] as the method's [subreddit_name], the others
    under their own names. *)
Definition call_arg (c : client_call) (param : string) : option pyval :=
  match c with
  | SearchPosts subreddit_name query limit sort time_filter =>
      if String.eqb param "subreddit" then Some subreddit_name
      else if String.eqb param "query" then Some query
      else if String.eqb param "limit" then Some limit
      else if String.eqb param "sort" then Some sort
      else if String.eqb param "time_filter" then Some time_filter
      else None
  | GetPostDetails post_id =>
      if String.eqb param "post_id" then Some post_id else None
  | GetSubredditInfo subreddit_name =>
      if String.eqb param "subreddit" then Some subreddit_name else None
  | GetHotPosts subreddit_name limit =>
      if String.eqb param "subreddit" then Some subreddit_name
      else if String.eqb param "limit" then Some limit
      else None
  end.

(** The collaborator call the contract prescribes for a known tool and a
    mapping that is there: required arguments as they are found ([None]
    when missing), optional ones with the declared default when missing. *)
Definition prescribed_call (tool : string) (d : gmap string pyval)
    : option client_call :=
  let required key := default PyNone (d !! key) in
  let optional key dflt := default dflt (d !! key) in
  if String.eqb tool "search_reddit_posts" then
    Some (SearchPosts (required "subreddit") (required "query")
            (optional "limit" (PyInt 10)) (optional "sort" (PyStr "relevance"))
            (optional "time_filter" (PyStr "all")))
  else if String.eqb tool "get_reddit_post_details" then
    Some (GetPostDetails (required "post_id"))
  else if String.eqb tool "get_subreddit_info" then
    Some (GetSubredditInfo (required "subreddit"))
  else if String.eqb tool "get_hot_reddit_posts" then
    Some (GetHotPosts (required "subreddit") (optional "limit" (PyInt 10)))
  else None.

(** The response shape: one block of type ["text"]. *)
Definition single_text (r : CallToolResult) (t : string) : Prop :=
  content r = [ {| type := "text"; text := t |} ].

(** A computation whose outcome, when it is a value, is a one-block text
    result without error status. *)
Definition text_shaped (m : Handler CallToolResult) : Prop :=
  match outcome m with
  | Ok r => exists t, r = text_result t
  | Raise _ => True
  end.

(** A computation that never calls the collaborator. *)
Definition silent {A} (m : Handler A) : Prop := calls (trace m) = [].

End Contract.

(* ===================================================================== *)
(** * Sample collaborators and interpreter for the closed examples *)
(* ===================================================================== *)

Module Sample.
Import Py Mcp Server.

(** Stands for the interpreter in the closed examples.  Its [json_dumps] is
    CPython's on [None], booleans, integers, the empty list and the empty
    dict, which covers what the sample collaborators return; the examples
    apply it to nothing else, and none of them formats a float, a list or a
    dict. *)
Definition runtime : Runtime := {|
  json_dumps := fun v =>
    match v with
    | PyNone => Ok "null"
    | PyBool true => Ok "true"
    | PyBool false => Ok "false"
    | PyInt z => Ok (pretty z)
    | PyList [] => Ok "[]"
    | PyDict [] => Ok "{}"
    | _ => Ok "..."
    end;
  repr_compound := fun _ => "..."
|}.

(** A collaborator that finds nothing: empty listings, empty records. *)
Definition empty_client : RedditClient := {|
  search_posts := fun _ _ _ _ _ => Ok (PyList []);
  get_post_details := fun _ => Ok (PyDict []);
  get_subreddit_info := fun _ => Ok (PyDict []);
  get_hot_posts := fun _ _ => Ok (PyList [])
|}.

(** A collaborator whose every request fails. *)
Definition not_found : pyexn := PyExn "NotFound" "received 404 HTTP response".

Definition failing_client : RedditClient := {|
  search_posts := fun _ _ _ _ _ => Raise not_found;
  get_post_details := fun _ => Raise not_found;
  get_subreddit_info := fun _ => Raise not_found;
  get_hot_posts := fun _ _ => Raise not_found
|}.

(** The argument mappings of the examples. *)
Definition hot_python : gmap string pyval := {[ "subreddit" := PyStr "python" ]}.

Definition search_foo : gmap string pyval :=
  <["subreddit" := PyStr "test"]>
    (<["query" := PyStr "foo"]>
       (<["sort" := PyStr "new"]> {[ "time_filter" := PyStr "week" ]})).

Definition hot_limit (z : Z) : gmap string pyval :=
  <["limit" := PyInt z]> hot_python.

End Sample.

(* ===================================================================== *)
(** * [reddit_mcp/server.py]: start-up *)
(* ===================================================================== *)

Module Startup.
Import Py Mcp Server.

(** Log records of the start-up code, which writes at two levels. *)
Inductive level : Type := INFO | ERROR.

Section Initialize.

(** [RedditConfig] lives in [reddit_mcp/config.py]: its values are opaque
    here.  [from_env] is what [RedditConfig.from_env()] does in the process
    environment at hand, [new_client] what [RedditClient(config)] does;
    either may raise. *)
Variable Config : Type.
Variable from_env : result Config.
Variable new_client : Config -> result RedditClient.

(** What start-up does to the world. *)
Inductive init_event : Type :=
| FromEnv
| Construct (config : Config)
| Log (lvl : level) (line : string).

(** A computation over the module's global [reddit_client]: from the
    handle before, the events emitted, the handle after, and the outcome.
    An assignment made before a [raise] stays made. *)
Definition St (A : Type) : Type :=
  option RedditClient -> (list init_event * option RedditClient * result A)%type.

Definition st_ret {A} (a : A) : St A := fun rc => ([], rc, Ok a).

Definition st_bind {A B} (m : St A) (k : A -> St B) : St B :=
  fun rc =>
    match m rc with
    | (tr, rc', Ok a) =>
        let '(tr', rc'', r) := k a rc' in ((tr ++ tr')%list, rc'', r)
    | (tr, rc', Raise e) => (tr, rc', Raise e)
    end.

(** [try: body except Exception as e: handler(e)]. *)
Definition st_try_except {A} (body : St A) (handler : pyexn -> St A) : St A :=
  fun rc =>
    match body rc with
    | (tr, rc', Ok a) => (tr, rc', Ok a)
    | (tr, rc', Raise e) =>
        let '(tr', rc'', r) := handler e rc' in ((tr ++ tr')%list, rc'', r)
    end.

(** [RedditConfig.from_env()]. *)
Definition RedditConfig_from_env : St Config :=
  fun rc => ([FromEnv], rc, from_env).

(** [RedditClient(config)]. *)
Definition RedditClient_new (config : Config) : St RedditClient :=
  fun rc => ([Construct config], rc, new_client config).

(** [reddit_client = v], on the global. *)
Definition assign_reddit_client (v : option RedditClient) : St unit :=
  fun _ => ([], v, Ok tt).

Definition logger_info (line : string) : St unit :=
  fun rc => ([Log INFO line], rc, Ok tt).

Definition logger_error (line : string) : St unit :=
  fun rc => ([Log ERROR line], rc, Ok tt).

(** Initialize the Reddit client with configuration. *)
Definition initialize_reddit_client : St unit :=
  st_try_except
    (st_bind RedditConfig_from_env (fun config =>
     st_bind (RedditClient_new config) (fun client =>
     st_bind (assign_reddit_client (Some client)) (fun _ =>
     logger_info "Reddit client initialized successfully in read-only mode"))))
    (fun e =>
     st_bind (logger_error
                ("Failed to initialize Reddit client: " +:+ exn_str e))
       (fun _ => assign_reddit_client None)).

End Initialize.

Arguments FromEnv {Config}.
Arguments Construct {Config} config.
Arguments Log {Config} lvl line.

(** The parts of a run. *)
Definition events {Config A}
    (run : list (init_event Config) * option RedditClient * result A)
    : list (init_event Config) := fst (fst run).

Definition handle {Config A}
    (run : list (init_event Config) * option RedditClient * result A)
    : option RedditClient := snd (fst run).

Definition raised {Config A}
    (run : list (init_event Config) * option RedditClient * result A)
    : result A := snd run.

(** The log records of a run, in order, and the configurations the client
    constructor was called with. *)
Definition records {Config} (tr : list (init_event Config))
    : list (level * string) :=
  omap (fun ev => match ev with Log lvl line => Some (lvl, line) | _ => None end)
       tr.

Definition constructions {Config} (tr : list (init_event Config))
    : list Config :=
  omap (fun ev => match ev with Construct config => Some config | _ => None end)
       tr.

End Startup.

(* ===================================================================== *)
(** * More vocabulary *)
(* ===================================================================== *)

Module Observations.
Import Py Mcp Server.

(** A computation that writes no log record. *)
Definition quiet {A} (m : Handler A) : Prop := log_lines (trace m) = [].

(** A value [len] accepts. *)
Definition sized (v : pyval) : Prop := exists n, len v = Ok n.

(** The log line of the [except] clause. *)
Definition error_line (tool : string) (e : pyexn) : string :=
  "Error calling tool " +:+ tool +:+ ": " +:+ exn_str e.

End Observations.

(* ===================================================================== *)
(** * More sample values for the closed examples *)
(* ===================================================================== *)

Module Fixtures.
Import Py Mcp Server.

(** A serialiser that gives up on every value, as [json.dumps] does on a
    circular structure. *)
Definition circular : pyexn := PyExn "ValueError" "Circular reference detected".

Definition failing_runtime : Runtime := {|
  json_dumps := fun _ => Raise circular;
  repr_compound := fun _ => "..."
|}.

(** A collaborator that answers every request with [None]. *)
Definition none_client : RedditClient := {|
  search_posts := fun _ _ _ _ _ => Ok PyNone;
  get_post_details := fun _ => Ok PyNone;
  get_subreddit_info := fun _ => Ok PyNone;
  get_hot_posts := fun _ _ => Ok PyNone
|}.

(** Argument mappings. *)
Definition post_abc123 : gmap string pyval := {[ "post_id" := PyStr "abc123" ]}.

Definition python_sorted_badly : gmap string pyval :=
  <["sort" := PyStr "upside-down"]> {[ "subreddit" := PyStr "python" ]}.

(** Start-up: the configuration is a plain string here; loading it fails
    when the credentials are missing. *)
Definition missing_credentials : pyexn :=
  PyExn "ValueError" "Missing required Reddit API configuration".

End Fixtures.

(* ===================================================================== *)
(** * Properties *)
(* ===================================================================== *)

Import Py Mcp Server Contract.

(** ** Proof steps used more than once *)

(** Splits [x ∈ [a; b; ...]] in hypothesis [H] into its cases. *)
Ltac list_cases H :=
  repeat (apply elem_of_cons in H as [H|H];
          [try discriminate H; try (injection H as -> ->)|]);
  try (apply elem_of_nil in H; contradiction H).

(** Membership in, and absence from, the list of tool names, for a
    literal name. *)
Ltac known_name := unfold known_tools; repeat constructor.
Ltac unknown_name := apply (bool_decide_unpack _); vm_compute; exact I.

(** ** The effect layer *)

Lemma calls_app {call} (tr1 tr2 : list (event call)) :
  calls (tr1 ++ tr2)%list = (calls tr1 ++ calls tr2)%list.
Proof. unfold calls. apply omap_app. Qed.

Lemma bind_lift_ok {call A B} (a : A) (k : A -> M call B) :
  bind (lift (Ok a)) k = k a.
Proof. unfold bind, lift. destruct (k a) as [tr r]. reflexivity. Qed.

Lemma bind_lift_raise {call A B} (e : pyexn) (k : A -> M call B) :
  bind (lift (Raise e)) k = ([], Raise e).
Proof. reflexivity. Qed.

Lemma bind_invoke_ok {call A B} (c : call) (a : A) (k : A -> M call B) :
  bind (invoke c (Ok a)) k = (Invoke c :: trace (k a), outcome (k a)).
Proof. unfold bind, invoke. destruct (k a) as [tr r]. reflexivity. Qed.

Lemma bind_invoke_raise {call A B} (c : call) (e : pyexn) (k : A -> M call B) :
  bind (invoke c (Raise e)) k = ([Invoke c], Raise e).
Proof. reflexivity. Qed.

Lemma try_except_cons {call A} (ev : event call) (tr : list (event call))
    (r : result A) (h : pyexn -> M call A) :
  try_except (ev :: tr, r) h =
  (ev :: trace (try_except (tr, r) h), outcome (try_except (tr, r) h)).
Proof.
  unfold try_except. destruct r as [a|e]; [reflexivity|].
  destruct (h e) as [tr' r']. reflexivity.
Qed.

Lemma surjective_run {call A} (m : M call A) : m = (trace m, outcome m).
Proof. destruct m. reflexivity. Qed.

Lemma silent_ret {A} (a : A) : silent (ret a : Handler A).
Proof. reflexivity. Qed.

Lemma silent_lift {A} (r : result A) : silent (lift r : Handler A).
Proof. reflexivity. Qed.

Lemma silent_bind {A B} (m : Handler A) (k : A -> Handler B) :
  silent m -> (forall a, silent (k a)) -> silent (bind m k).
Proof.
  unfold silent, bind, trace. destruct m as [tr [a|e]]; intros Hm Hk;
    [|exact Hm].
  specialize (Hk a). destruct (k a) as [tr' r]. simpl fst in *.
  rewrite calls_app, Hm, Hk. reflexivity.
Qed.

Lemma silent_try_except {A} (body : Handler A) (h : pyexn -> Handler A) :
  silent body -> (forall e, silent (h e)) -> silent (try_except body h).
Proof.
  unfold silent, try_except, trace. destruct body as [tr [a|e]]; intros Hb Hh;
    [exact Hb|].
  specialize (Hh e). destruct (h e) as [tr' r]. simpl fst in *.
  rewrite calls_app, Hb, Hh. reflexivity.
Qed.

Lemma text_shaped_ret (t : string) : text_shaped (ret (text_result t)).
Proof. cbn. eauto. Qed.

Lemma text_shaped_bind {A} (m : Handler A) (k : A -> Handler CallToolResult) :
  (forall a, text_shaped (k a)) -> text_shaped (bind m k).
Proof.
  unfold text_shaped, bind. destruct m as [tr [a|e]]; cbn; intros Hk; [|exact I].
  specialize (Hk a). destruct (k a) as [tr' r]. exact Hk.
Qed.

Create HintDb handler.
#[local] Hint Resolve silent_ret silent_lift silent_bind silent_try_except
  text_shaped_ret text_shaped_bind : handler.

(** ** The dispatcher *)

Section Dispatcher.
Context `{Runtime}.

Lemma known_tools_cases (P : string -> Prop) :
  P "search_reddit_posts" -> P "get_reddit_post_details" ->
  P "get_subreddit_info" -> P "get_hot_reddit_posts" ->
  forall tool, tool ∈ known_tools -> P tool.
Proof.
  intros H1 H2 H3 H4 tool Hin. unfold known_tools in Hin.
  repeat (apply elem_of_cons in Hin as [->|Hin]; [assumption|]).
  apply elem_of_nil in Hin. contradiction.
Qed.

Lemma silent_on_exception tool e : silent (on_exception tool e).
Proof. reflexivity. Qed.

Lemma on_exception_run tool e :
  on_exception tool e =
  ([LogError ("Error calling tool " +:+ tool +:+ ": " +:+ exn_str e)],
   Ok (text_result ("Error: " +:+ exn_str e))).
Proof. reflexivity. Qed.

(** With the mapping there, a known tool is one collaborator call, the
    prescribed one, followed by a rendering that calls nothing. *)
Lemma dispatch_present client tool d :
  tool ∈ known_tools ->
  exists c k,
    prescribed_call tool d = Some c /\
    dispatch client tool (Some d) = bind (perform client c) k /\
    (forall v, silent (k v)) /\ (forall v, text_shaped (k v)).
Proof.
  revert tool. apply known_tools_cases.
  all: eexists _, _; split; [reflexivity|]; split;
    [unfold dispatch, get; simpl (String.eqb _ _); cbv iota;
     rewrite ?bind_lift_ok; reflexivity|].
  all: split; intros v; cbv beta; auto 10 with handler.
Qed.

(** With the mapping absent, a known tool stops at the first
    [arguments.get]. *)
Lemma dispatch_absent client tool :
  tool ∈ known_tools ->
  dispatch client tool None = ([], Raise AttributeError_get).
Proof. revert tool. apply known_tools_cases; reflexivity. Qed.

Lemma dispatch_unknown client tool arguments :
  tool ∉ known_tools ->
  dispatch client tool arguments = ret (text_result ("Unknown tool: " +:+ tool)).
Proof.
  intros Hnot. unfold dispatch.
  repeat match goal with
  | |- context [String.eqb tool ?lit] =>
      destruct (String.eqb_spec tool lit) as [->|_];
        [exfalso; apply Hnot; unfold known_tools; set_solver|]
  end.
  reflexivity.
Qed.

(** The calls of a handler run with the mapping there: the prescribed one,
    once. *)
Lemma call_tool_present_calls client tool d :
  tool ∈ known_tools ->
  exists c,
    prescribed_call tool d = Some c /\
    calls (trace (call_tool (Some client) tool (Some d))) = [c].
Proof.
  intros Hknown.
  destruct (dispatch_present client tool d Hknown) as (c & k & Hc & Hd & Hs & _).
  exists c. split; [exact Hc|].
  unfold call_tool. rewrite Hd. unfold perform.
  destruct (answer client c) as [v|e].
  - rewrite bind_invoke_ok, try_except_cons, <- surjective_run.
    change (c :: calls (trace (try_except (k v) (on_exception tool))) = [c]).
    f_equal. apply silent_try_except; [apply Hs|apply silent_on_exception].
  - rewrite bind_invoke_raise. reflexivity.
Qed.

(** A fault of the prescribed call ends the run in the [except] clause. *)
Lemma call_tool_present_raise client tool d c e :
  tool ∈ known_tools ->
  prescribed_call tool d = Some c ->
  answer client c = Raise e ->
  call_tool (Some client) tool (Some d) =
  ([Invoke c; LogError ("Error calling tool " +:+ tool +:+ ": " +:+ exn_str e)],
   Ok (text_result ("Error: " +:+ exn_str e))).
Proof.
  intros Hknown Hc He.
  destruct (dispatch_present client tool d Hknown) as (c' & k & Hc' & Hd & _).
  assert (c' = c) as -> by congruence.
  unfold call_tool. rewrite Hd. unfold perform. rewrite He, bind_invoke_raise.
  reflexivity.
Qed.

Lemma call_tool_absent client tool :
  tool ∈ known_tools ->
  call_tool (Some client) tool None =
  ([LogError ("Error calling tool " +:+ tool +:+ ": "
              +:+ exn_str AttributeError_get)],
   Ok (text_result ("Error: " +:+ exn_str AttributeError_get))).
Proof.
  intros Hknown. unfold call_tool. rewrite (dispatch_absent _ _ Hknown).
  reflexivity.
Qed.

Lemma text_shaped_dispatch client tool arguments :
  text_shaped (dispatch client tool arguments).
Proof.
  destruct (decide (tool ∈ known_tools)) as [Hknown|Hnot].
  - destruct arguments as [d|].
    + destruct (dispatch_present client tool d Hknown) as (c & k & _ & -> & _ & Ht).
      apply text_shaped_bind, Ht.
    + rewrite (dispatch_absent _ _ Hknown). exact I.
  - rewrite (dispatch_unknown _ _ _ Hnot). apply text_shaped_ret.
Qed.

Lemma elem_of_calls (tr : list (event client_call)) c :
  Invoke c ∈ tr <-> c ∈ calls tr.
Proof.
  unfold calls. rewrite list_elem_of_omap. split.
  - intros Hin. exists (Invoke c). split; [exact Hin|reflexivity].
  - intros (ev & Hin & Hev). destruct ev; [|discriminate].
    injection Hev as ->. exact Hin.
Qed.

End Dispatcher.

(** ** The catalog read through [declared] and [required_of] *)

Lemma find_tool_known tool t : find_tool tool = Some t -> tool ∈ known_tools.
Proof.
  unfold find_tool, catalog, known_tools. simpl outcome. cbv iota. simpl tools.
  unfold List.find. simpl name.
  repeat match goal with
  | |- context [String.eqb ?lit tool] =>
      destruct (String.eqb_spec lit tool) as [<-|_]; [intros _; set_solver|]
  end.
  discriminate.
Qed.

Lemma dict_field_elem key v fields :
  dict_field key (PyDict fields) = Some v -> (key, v) ∈ fields.
Proof.
  unfold dict_field. induction fields as [|[k x] rest IH]; simpl;
    [discriminate|].
  destruct (String.eqb_spec k key) as [->|Hne]; simpl.
  - intros [= ->]. left.
  - intros Hrest. right. apply IH, Hrest.
Qed.

Lemma declared_inv tool param attr dv :
  declared tool param attr = Some dv ->
  exists t fields prop,
    find_tool tool = Some t /\
    dict_field "properties" (inputSchema t) = Some (PyDict fields) /\
    (param, prop) ∈ fields /\ dict_field attr prop = Some dv.
Proof.
  unfold declared. intros Hd.
  apply bind_Some in Hd as (t & Ht & Hd).
  apply bind_Some in Hd as (props & Hprops & Hd).
  apply bind_Some in Hd as (prop & Hprop & Hd).
  destruct props as [| | | | |items|fields]; try discriminate Hprop.
  exists t, fields, prop. auto using dict_field_elem.
Qed.

Lemma declared_default_cases tool param dv :
  declared tool param "default" = Some dv ->
  (tool = "search_reddit_posts" /\ param = "limit" /\ dv = PyInt 10) \/
  (tool = "search_reddit_posts" /\ param = "sort" /\ dv = PyStr "relevance") \/
  (tool = "search_reddit_posts" /\ param = "time_filter" /\ dv = PyStr "all") \/
  (tool = "get_hot_reddit_posts" /\ param = "limit" /\ dv = PyInt 10).
Proof.
  intros Hd. apply declared_inv in Hd as (t & fields & prop & Ht & Hf & Hin & Hd).
  pose proof (find_tool_known _ _ Ht) as Hknown.
  revert Ht. pattern tool. revert tool Hknown.
  apply known_tools_cases; intros [= <-]; injection Hf as <-; list_cases Hin;
    try discriminate Hd; injection Hd as <-; tauto.
Qed.

Lemma required_of_cases tool param :
  param ∈ required_of tool ->
  (tool = "search_reddit_posts" /\ (param = "subreddit" \/ param = "query")) \/
  (tool = "get_reddit_post_details" /\ param = "post_id") \/
  (tool = "get_subreddit_info" /\ param = "subreddit") \/
  (tool = "get_hot_reddit_posts" /\ param = "subreddit").
Proof.
  unfold required_of. destruct (find_tool tool) as [t|] eqn:Ht;
    [|intros Hin; apply elem_of_nil in Hin; contradiction].
  pose proof (find_tool_known _ _ Ht) as Hknown.
  revert Ht. pattern tool. revert tool Hknown.
  apply known_tools_cases; intros [= <-] Hin; vm_compute in Hin;
    list_cases Hin; subst; tauto.
Qed.

(** ** The claims *)

Section Claims.
Context `{Runtime}.

(** C1.  For every known tool name and every argument mapping (present or
    absent): when the run invokes the collaborator and that call raises a
    fault [e], the dispatcher catches it, logs one line, and returns a
    result whose single text block is ["Error: "] followed by [str(e)]; the
    outcome is a value, so the fault does not reach the caller. *)
Theorem C1_collaborator_fault_is_caught client tool arguments c e :
  tool ∈ known_tools ->
  Invoke c ∈ trace (call_tool (Some client) tool arguments) ->
  answer client c = Raise e ->
  call_tool (Some client) tool arguments =
  ([Invoke c; LogError ("Error calling tool " +:+ tool +:+ ": " +:+ exn_str e)],
   Ok (text_result ("Error: " +:+ exn_str e))).
Proof.
  intros Hknown Hin He. destruct arguments as [d|].
  - destruct (call_tool_present_calls client tool d Hknown) as (c' & Hc' & Hcalls).
    apply elem_of_calls in Hin. rewrite Hcalls in Hin.
    apply list_elem_of_singleton in Hin as ->.
    apply call_tool_present_raise; assumption.
  - rewrite (call_tool_absent _ _ Hknown) in Hin.
    apply list_elem_of_singleton in Hin. discriminate Hin.
Qed.

(** C2.  With the collaborator handle unset, every call, whatever the tool
    name and the arguments (absent included), returns the fixed
    not-initialized text in a single block and emits no event: no method of
    the collaborator is invoked. *)
Theorem C2_unset_handle_fixed_text tool arguments :
  trace (call_tool None tool arguments) = [] /\
  exists r,
    outcome (call_tool None tool arguments) = Ok r /\
    single_text r not_initialized_text.
Proof. split; [reflexivity|]. eexists. split; reflexivity. Qed.

(** C3, as amended.  With the collaborator handle set, a call with a name
    outside the four tool names returns, for any arguments, a single text
    block equal to ["Unknown tool: {name}"], without error status, without
    calling the collaborator and without logging. *)
Theorem C3_unknown_tool_when_initialized client tool arguments :
  tool ∉ known_tools ->
  exists r,
    call_tool (Some client) tool arguments = ([], Ok r) /\
    single_text r ("Unknown tool: " +:+ tool) /\ isError r = false.
Proof.
  intros Hnot. eexists. unfold call_tool.
  rewrite (dispatch_unknown _ _ _ Hnot). repeat split.
Qed.

(** C4.  [list_tools] has no parameter, reads no state and emits no event;
    it answers with four descriptors, in this order: search_reddit_posts,
    get_reddit_post_details, get_subreddit_info, get_hot_reddit_posts, no
    name twice, whose [required] arrays are [subreddit, query], [post_id],
    [subreddit] and [subreddit]. *)
Theorem C4_catalog_is_fixed :
  trace list_tools = [] /\
  exists r,
    outcome list_tools = Ok r /\
    map name (tools r) = known_tools /\
    NoDup (map name (tools r)) /\
    map (fun t => required_names (inputSchema t)) (tools r) =
      [ ["subreddit"; "query"]; ["post_id"]; ["subreddit"]; ["subreddit"] ].
Proof.
  split; [reflexivity|]. eexists. split; [reflexivity|].
  split; [reflexivity|]. split; [|reflexivity].
  apply (bool_decide_unpack _). vm_compute. exact I.
Qed.

(** C5.  An optional parameter that is not in the arguments mapping reaches
    the collaborator with the default the catalog declares for it; in
    particular [get_hot_reddit_posts] with [{subreddit: "python"}] forwards
    [limit=10], and [search_reddit_posts] with [{subreddit: "test", query:
    "foo", sort: "new", time_filter: "week"}] forwards [limit=10],
    [sort="new"], [time_filter="week"]. *)
Theorem C5_declared_defaults_forwarded :
  (forall client tool (d : gmap string pyval) param dv,
     declared tool param "default" = Some dv ->
     d !! param = None ->
     exists c,
       calls (trace (call_tool (Some client) tool (Some d))) = [c] /\
       call_arg c param = Some dv) /\
  (forall client,
     calls (trace (call_tool (Some client) "get_hot_reddit_posts"
                     (Some {[ "subreddit" := PyStr "python" ]}))) =
     [GetHotPosts (PyStr "python") (PyInt 10)]) /\
  (forall client,
     calls (trace (call_tool (Some client) "search_reddit_posts"
                     (Some (<["subreddit" := PyStr "test"]>
                            (<["query" := PyStr "foo"]>
                             (<["sort" := PyStr "new"]>
                              {[ "time_filter" := PyStr "week" ]})))))) =
     [SearchPosts (PyStr "test") (PyStr "foo") (PyInt 10)
        (PyStr "new") (PyStr "week")]).
Proof.
  split; [|split].
  - intros client tool d param dv Hdecl Hnone.
    assert (exists c, prescribed_call tool d = Some c /\ call_arg c param = Some dv)
      as (c & Hc & Harg).
    { apply declared_default_cases in Hdecl
        as [(-> & -> & ->)|[(-> & -> & ->)|[(-> & -> & ->)|(-> & -> & ->)]]];
        (eexists; split; [reflexivity|]);
        unfold call_arg; simpl (String.eqb _ _); cbv iota;
        rewrite Hnone; reflexivity. }
    assert (tool ∈ known_tools) as Hknown.
    { unfold prescribed_call in Hc. unfold known_tools.
      repeat match type of Hc with
      | context [String.eqb tool ?lit] =>
          destruct (String.eqb_spec tool lit) as [->|_]; [set_solver|]
      end.
      discriminate Hc. }
    destruct (call_tool_present_calls client tool d Hknown) as (c' & Hc' & Hcalls).
    exists c. split; [congruence|exact Harg].
  - intros client.
    destruct (call_tool_present_calls client "get_hot_reddit_posts"
                {[ "subreddit" := PyStr "python" ]}) as (c & Hc & ->);
      [unfold known_tools; set_solver|].
    vm_compute in Hc. congruence.
  - intros client.
    destruct (call_tool_present_calls client "search_reddit_posts"
                (<["subreddit" := PyStr "test"]>
                   (<["query" := PyStr "foo"]>
                      (<["sort" := PyStr "new"]>
                         {[ "time_filter" := PyStr "week" ]}))))
      as (c & Hc & ->); [unfold known_tools; set_solver|].
    vm_compute in Hc. congruence.
Qed.

(** C6.  When the collaborator is initialized, [search_posts] returns a list
    of posts without fault and that list serialises, the result of
    [search_reddit_posts] is a single text block: the header
    ["Found {count} posts in r/{subreddit} for query: '{query}'"], a blank
    line, then the serialised list; nothing is logged. *)
Theorem C6_search_success_text client (d : gmap string pyval) posts dumped :
  search_posts client
    (default PyNone (d !! "subreddit")) (default PyNone (d !! "query"))
    (default (PyInt 10) (d !! "limit"))
    (default (PyStr "relevance") (d !! "sort"))
    (default (PyStr "all") (d !! "time_filter")) = Ok (PyList posts) ->
  json_dumps (PyList posts) = Ok dumped ->
  exists r,
    outcome (call_tool (Some client) "search_reddit_posts" (Some d)) = Ok r /\
    single_text r
      ("Found " +:+ pretty (length posts) +:+ " posts in r/"
       +:+ str (default PyNone (d !! "subreddit")) +:+ " for query: '"
       +:+ str (default PyNone (d !! "query")) +:+ "'" +:+ nl +:+ nl
       +:+ dumped) /\
    log_lines (trace (call_tool (Some client) "search_reddit_posts" (Some d)))
      = [].
Proof.
  intros Hposts Hdumped. eexists.
  unfold call_tool, dispatch, get. simpl (String.eqb _ _). cbv iota.
  rewrite !bind_lift_ok. unfold perform, answer.
  rewrite Hposts, bind_invoke_ok. unfold len.
  rewrite bind_lift_ok, Hdumped, bind_lift_ok.
  repeat split.
Qed.

(** C7, evaluated where it fails.  With the mapping absent, a call to any
    of the four known tools never reaches the collaborator: the first
    [arguments.get] raises, and the result is the text of that
    [AttributeError].  With the mapping empty the collaborator is called,
    with [None] for each required argument. *)
Theorem C7_absent_mapping_is_not_forwarded client :
  map (fun tool => calls (trace (call_tool (Some client) tool None)))
      known_tools = [ []; []; []; [] ] /\
  Forall (fun tool =>
            outcome (call_tool (Some client) tool None) =
            Ok (text_result
                  "Error: 'NoneType' object has no attribute 'get'"))
         known_tools /\
  map (fun tool => calls (trace (call_tool (Some client) tool (Some ∅))))
      known_tools =
    [ [SearchPosts PyNone PyNone (PyInt 10) (PyStr "relevance") (PyStr "all")];
      [GetPostDetails PyNone];
      [GetSubredditInfo PyNone];
      [GetHotPosts PyNone (PyInt 10)] ].
Proof.
  split; [reflexivity|]. split.
  - apply Forall_forall. intros tool Hknown.
    rewrite call_tool_absent by exact Hknown. reflexivity.
  - unfold known_tools, map.
    repeat match goal with
    | |- context [call_tool (Some client) ?tool (Some ∅)] =>
        let c := fresh "c" in
        let Hc := fresh "Hc" in
        destruct (call_tool_present_calls client tool ∅) as (c & Hc & ->);
          [unfold known_tools; set_solver|];
        vm_compute in Hc; injection Hc as <-
    end.
    reflexivity.
Qed.

(** C8, as amended.  For a known tool and a mapping that is there, the
    collaborator is invoked exactly once whether or not the parameters of
    the tool's [required] array are in the mapping; a required parameter
    that is missing is forwarded as [None]. *)
Theorem C8_required_is_not_enforced client tool (d : gmap string pyval) :
  tool ∈ known_tools ->
  exists c,
    calls (trace (call_tool (Some client) tool (Some d))) = [c] /\
    forall param,
      param ∈ required_of tool -> d !! param = None ->
      call_arg c param = Some PyNone.
Proof.
  intros Hknown.
  destruct (call_tool_present_calls client tool d Hknown) as (c & Hc & Hcalls).
  exists c. split; [exact Hcalls|]. intros param Hreq Hnone.
  apply required_of_cases in Hreq
    as [(-> & [->| ->])|[(-> & ->)|[(-> & ->)|(-> & ->)]]];
    unfold prescribed_call in Hc; simpl (String.eqb _ _) in Hc; cbv iota in Hc;
    injection Hc as <-; unfold call_arg; simpl (String.eqb _ _); cbv iota;
    rewrite Hnone; reflexivity.
Qed.

(** C9.  Every invocation, whatever the handle, the tool name, the
    arguments and the collaborator's answer, returns a result (no fault
    escapes) whose content is exactly one block, of type ["text"]. *)
Theorem C9_single_text_block_always rc tool arguments :
  exists r t,
    outcome (call_tool rc tool arguments) = Ok r /\
    content r = [ {| type := "text"; text := t |} ].
Proof.
  destruct rc as [client|]; [|do 2 eexists; split; reflexivity].
  unfold call_tool.
  pose proof (text_shaped_dispatch client tool arguments) as Hshape.
  unfold text_shaped, outcome in Hshape.
  destruct (dispatch client tool arguments) as [tr [r|e]]; simpl in Hshape.
  - destruct Hshape as (t & ->). do 2 eexists. split; reflexivity.
  - do 2 eexists. split; reflexivity.
Qed.

(** C10.  The catalog advertises [minimum 1] and [maximum 100] for [limit]
    of [search_reddit_posts] and of [get_hot_reddit_posts], and an explicit
    integer [limit] outside that range reaches the collaborator as it was
    given: nothing is checked and nothing is clamped. *)
Theorem C10_limit_is_forwarded_unclamped client (d : gmap string pyval) z :
  (z < 1 \/ 100 < z)%Z ->
  d !! "limit" = Some (PyInt z) ->
  (declared "search_reddit_posts" "limit" "minimum" = Some (PyInt 1) /\
   declared "search_reddit_posts" "limit" "maximum" = Some (PyInt 100) /\
   declared "get_hot_reddit_posts" "limit" "minimum" = Some (PyInt 1) /\
   declared "get_hot_reddit_posts" "limit" "maximum" = Some (PyInt 100)) /\
  calls (trace (call_tool (Some client) "search_reddit_posts" (Some d))) =
    [SearchPosts (default PyNone (d !! "subreddit"))
       (default PyNone (d !! "query")) (PyInt z)
       (default (PyStr "relevance") (d !! "sort"))
       (default (PyStr "all") (d !! "time_filter"))] /\
  calls (trace (call_tool (Some client) "get_hot_reddit_posts" (Some d))) =
    [GetHotPosts (default PyNone (d !! "subreddit")) (PyInt z)].
Proof.
  intros _ Hlimit. split; [repeat split|]. split.
  - destruct (call_tool_present_calls client "search_reddit_posts" d)
      as (c & Hc & ->); [unfold known_tools; set_solver|].
    unfold prescribed_call in Hc. simpl (String.eqb _ _) in Hc. cbv iota in Hc.
    rewrite Hlimit in Hc. injection Hc as <-. reflexivity.
  - destruct (call_tool_present_calls client "get_hot_reddit_posts" d)
      as (c & Hc & ->); [unfold known_tools; set_solver|].
    unfold prescribed_call in Hc. simpl (String.eqb _ _) in Hc. cbv iota in Hc.
    rewrite Hlimit in Hc. injection Hc as <-. reflexivity.
Qed.

End Claims.

(** ** The claims at concrete inputs *)

(** C1 at [get_reddit_post_details] with [{post_id: "abc123"}] and a
    collaborator that answers 404. *)
Lemma C1_witness :
  @call_tool Sample.runtime (Some Sample.failing_client)
    "get_reddit_post_details" (Some {[ "post_id" := PyStr "abc123" ]}) =
  ([Invoke (GetPostDetails (PyStr "abc123"));
    LogError
      "Error calling tool get_reddit_post_details: received 404 HTTP response"],
   Ok (text_result "Error: received 404 HTTP response")).
Proof.
  apply (@C1_collaborator_fault_is_caught Sample.runtime Sample.failing_client
           "get_reddit_post_details" (Some {[ "post_id" := PyStr "abc123" ]})
           (GetPostDetails (PyStr "abc123")) Sample.not_found).
  - known_name.
  - vm_compute. constructor.
  - reflexivity.
Defined.

(** C3 as amended, at the name [frobnicate] with no arguments. *)
Lemma C3_witness :
  exists r,
    @call_tool Sample.runtime (Some Sample.empty_client) "frobnicate" None
      = ([], Ok r) /\
    single_text r "Unknown tool: frobnicate" /\ isError r = false.
Proof.
  apply (@C3_unknown_tool_when_initialized Sample.runtime Sample.empty_client
           "frobnicate" None).
  unknown_name.
Defined.

(** C3 as stated fails when the handle is unset: the name [frobnicate] is
    then answered with the not-initialized text, not with
    ["Unknown tool: frobnicate"]. *)
Lemma C3_counterexample :
("frobnicate" ∉ known_tools) /\
  outcome (@call_tool Sample.runtime None "frobnicate" (Some ∅)) =
    Ok (text_result not_initialized_text) /\
  ~ (exists r,
       outcome (@call_tool Sample.runtime None "frobnicate" (Some ∅)) = Ok r /\
       single_text r "Unknown tool: frobnicate").
Proof.
  split; [unknown_name|]. split; [reflexivity|].
  intros (r & Hr & Htext). injection Hr as <-.
  unfold single_text in Htext. discriminate Htext.
Qed.

(** C5 at [get_hot_reddit_posts] with [{subreddit: "python"}]: [limit] is
    declared with default 10 and is not in the mapping. *)
Lemma C5_witness :
  exists c,
    calls (trace (@call_tool Sample.runtime (Some Sample.empty_client)
                    "get_hot_reddit_posts" (Some Sample.hot_python))) = [c] /\
    call_arg c "limit" = Some (PyInt 10).
Proof.
  apply (proj1 (@C5_declared_defaults_forwarded Sample.runtime)
           Sample.empty_client "get_hot_reddit_posts" Sample.hot_python
           "limit" (PyInt 10)).
  - reflexivity.
  - vm_compute. reflexivity.
Defined.

(** C6 at the search for [foo] in [r/test], which finds nothing. *)
Lemma C6_witness :
  exists r,
    outcome (@call_tool Sample.runtime (Some Sample.empty_client)
               "search_reddit_posts" (Some Sample.search_foo)) = Ok r /\
    single_text r
      ("Found 0 posts in r/test for query: 'foo'" +:+ nl +:+ nl +:+ "[]") /\
    log_lines (trace (@call_tool Sample.runtime (Some Sample.empty_client)
                        "search_reddit_posts" (Some Sample.search_foo))) = [].
Proof.
  apply (@C6_search_success_text Sample.runtime Sample.empty_client
           Sample.search_foo [] "[]"); reflexivity.
Defined.

(** C8 as amended, at [get_subreddit_info] with the empty mapping. *)
Lemma C8_witness :
  exists c,
    calls (trace (@call_tool Sample.runtime (Some Sample.empty_client)
                    "get_subreddit_info" (Some ∅))) = [c] /\
    forall param,
      param ∈ required_of "get_subreddit_info" ->
      (∅ : gmap string pyval) !! param = None ->
      call_arg c param = Some PyNone.
Proof.
  apply (@C8_required_is_not_enforced Sample.runtime Sample.empty_client
           "get_subreddit_info" ∅).
  known_name.
Defined.

(** C8 as stated fails: [subreddit] is required for [get_subreddit_info]
    and is missing from the empty mapping, yet the collaborator is called,
    with [None], and its answer is rendered as a success. *)
Lemma C8_counterexample :
  "get_subreddit_info" ∈ known_tools /\
  "subreddit" ∈ required_of "get_subreddit_info" /\
  (∅ : gmap string pyval) !! "subreddit" = None /\
  @call_tool Sample.runtime (Some Sample.empty_client)
    "get_subreddit_info" (Some ∅) =
  ([Invoke (GetSubredditInfo PyNone)],
   Ok (text_result
         ("Subreddit information for r/None:" +:+ nl +:+ nl +:+ "{}"))) /\
  calls (trace (@call_tool Sample.runtime (Some Sample.empty_client)
                  "get_subreddit_info" (Some ∅))) <> [].
Proof.
  split; [known_name|].
  split; [vm_compute; constructor|].
  split; [reflexivity|]. split; [reflexivity|]. discriminate.
Qed.

(** C10 at [get_hot_reddit_posts] and [search_reddit_posts] with
    [limit: 1000]. *)
Lemma C10_witness :
  calls (trace (@call_tool Sample.runtime (Some Sample.empty_client)
                  "search_reddit_posts" (Some (Sample.hot_limit 1000)))) =
    [SearchPosts (PyStr "python") PyNone (PyInt 1000)
       (PyStr "relevance") (PyStr "all")] /\
  calls (trace (@call_tool Sample.runtime (Some Sample.empty_client)
                  "get_hot_reddit_posts" (Some (Sample.hot_limit 1000)))) =
    [GetHotPosts (PyStr "python") (PyInt 1000)].
Proof.
  apply (@C10_limit_is_forwarded_unclamped Sample.runtime Sample.empty_client
           (Sample.hot_limit 1000) 1000).
  - right. reflexivity.
  - vm_compute. reflexivity.
Defined.

(* ===================================================================== *)
(** * Further properties of the dispatcher *)
(* ===================================================================== *)

Import Observations.

Lemma log_lines_app {call} (tr1 tr2 : list (event call)) :
  log_lines (tr1 ++ tr2)%list = (log_lines tr1 ++ log_lines tr2)%list.
Proof. unfold log_lines. apply omap_app. Qed.

Lemma quiet_ret {A} (a : A) : quiet (ret a : Handler A).
Proof. reflexivity. Qed.

Lemma quiet_lift {A} (r : result A) : quiet (lift r : Handler A).
Proof. reflexivity. Qed.

Lemma quiet_perform client c : quiet (perform client c).
Proof. reflexivity. Qed.

Lemma quiet_bind {A B} (m : Handler A) (k : A -> Handler B) :
  quiet m -> (forall a, quiet (k a)) -> quiet (bind m k).
Proof.
  unfold quiet, bind, trace. destruct m as [tr [a|e]]; intros Hm Hk;
    [|exact Hm].
  specialize (Hk a). destruct (k a) as [tr' r]. simpl fst in *.
  rewrite log_lines_app, Hm, Hk. reflexivity.
Qed.

#[local] Hint Resolve quiet_ret quiet_lift quiet_perform quiet_bind : handler.

(** Reduces a call of a known tool with the mapping there up to the
    collaborator's answer. *)
Ltac run_present :=
  unfold call_tool, dispatch, get; simpl (String.eqb _ _); cbv iota;
  rewrite ?bind_lift_ok; unfold perform, answer.

Section MoreDispatcher.
Context `{Runtime}.

(** The [try] block writes no log record, whatever it is called with. *)
Lemma dispatch_quiet client tool arguments :
  quiet (dispatch client tool arguments).
Proof.
  unfold dispatch.
  repeat match goal with
  | |- context [String.eqb tool ?lit] => destruct (String.eqb tool lit)
  end; auto 12 with handler.
Qed.

Lemma call_tool_unknown_run client tool arguments :
  tool ∉ known_tools ->
  call_tool (Some client) tool arguments =
  ([], Ok (text_result ("Unknown tool: " +:+ tool))).
Proof.
  intros Hnot. unfold call_tool. rewrite (dispatch_unknown _ _ _ Hnot).
  reflexivity.
Qed.

(** A collaborator call in the trace means a known tool, a mapping that is
    there, and the prescribed call. *)
Lemma invoked_inv client tool arguments c :
  Invoke c ∈ trace (call_tool (Some client) tool arguments) ->
  tool ∈ known_tools /\
  exists d, arguments = Some d /\ prescribed_call tool d = Some c.
Proof.
  intros Hin. destruct (decide (tool ∈ known_tools)) as [Hknown|Hnot].
  - split; [exact Hknown|]. destruct arguments as [d|].
    + exists d. split; [reflexivity|].
      destruct (call_tool_present_calls client tool d Hknown)
        as (c' & Hc' & Hcalls).
      apply elem_of_calls in Hin. rewrite Hcalls in Hin.
      apply list_elem_of_singleton in Hin as ->. exact Hc'.
    + rewrite (call_tool_absent _ _ Hknown) in Hin.
      apply list_elem_of_singleton in Hin. discriminate Hin.
  - rewrite (call_tool_unknown_run _ _ _ Hnot) in Hin.
    apply elem_of_nil in Hin. contradiction.
Qed.

End MoreDispatcher.

Section Extras.
Context `{Runtime}.

(** X1.  A successful [get_reddit_post_details] call (the collaborator
    returns, the value serialises) makes exactly one collaborator call and
    answers with the single text block ["Post details for {post_id}:"], a
    blank line, then the serialised record; nothing is logged. *)
Theorem X1_post_details_success_text client (d : gmap string pyval) details dumped :
  get_post_details client (default PyNone (d !! "post_id")) = Ok details ->
  json_dumps details = Ok dumped ->
  call_tool (Some client) "get_reddit_post_details" (Some d) =
  ([Invoke (GetPostDetails (default PyNone (d !! "post_id")))],
   Ok (text_result
         ("Post details for " +:+ str (default PyNone (d !! "post_id"))
          +:+ ":" +:+ nl +:+ nl +:+ dumped))).
Proof.
  intros Hans Hdumped. run_present.
  rewrite Hans, bind_invoke_ok, Hdumped, bind_lift_ok. reflexivity.
Qed.

(** X2.  A successful [get_subreddit_info] call makes exactly one
    collaborator call and answers with the single text block
    ["Subreddit information for r/{subreddit}:"], a blank line, then the
    serialised record; nothing is logged. *)
Theorem X2_subreddit_info_success_text client (d : gmap string pyval) info dumped :
  get_subreddit_info client (default PyNone (d !! "subreddit")) = Ok info ->
  json_dumps info = Ok dumped ->
  call_tool (Some client) "get_subreddit_info" (Some d) =
  ([Invoke (GetSubredditInfo (default PyNone (d !! "subreddit")))],
   Ok (text_result
         ("Subreddit information for r/"
          +:+ str (default PyNone (d !! "subreddit"))
          +:+ ":" +:+ nl +:+ nl +:+ dumped))).
Proof.
  intros Hans Hdumped. run_present.
  rewrite Hans, bind_invoke_ok, Hdumped, bind_lift_ok. reflexivity.
Qed.

(** X3.  A successful [get_hot_reddit_posts] call makes exactly one
    collaborator call and answers with the single text block
    ["Hot posts from r/{subreddit}:"], a blank line, then the serialised
    value.  Unlike the search, the header carries no count and the value
    need not have a length. *)
Theorem X3_hot_posts_success_text client (d : gmap string pyval) posts dumped :
  get_hot_posts client (default PyNone (d !! "subreddit"))
    (default (PyInt 10) (d !! "limit")) = Ok posts ->
  json_dumps posts = Ok dumped ->
  call_tool (Some client) "get_hot_reddit_posts" (Some d) =
  ([Invoke (GetHotPosts (default PyNone (d !! "subreddit"))
              (default (PyInt 10) (d !! "limit")))],
   Ok (text_result
         ("Hot posts from r/" +:+ str (default PyNone (d !! "subreddit"))
          +:+ ":" +:+ nl +:+ nl +:+ dumped))).
Proof.
  intros Hans Hdumped. run_present.
  rewrite Hans, bind_invoke_ok, Hdumped, bind_lift_ok. reflexivity.
Qed.

(** X4.  A fault of the serialiser is caught like a fault of the
    collaborator: when the collaborator has answered (with a value that has
    a length, for the search) and [json.dumps] raises [e], the run is the
    collaborator call, one log line, and the single text ["Error: "]
    followed by [str(e)]. *)
Theorem X4_serialization_fault_is_caught client tool arguments c v e :
  Invoke c ∈ trace (call_tool (Some client) tool arguments) ->
  answer client c = Ok v ->
  (tool = "search_reddit_posts" -> sized v) ->
  json_dumps v = Raise e ->
  call_tool (Some client) tool arguments =
  ([Invoke c; LogError (error_line tool e)],
   Ok (text_result ("Error: " +:+ exn_str e))).
Proof.
  intros Hin Hans Hsized Hdumps.
  apply invoked_inv in Hin as (Hknown & d & -> & Hc).
  revert Hc Hsized. pattern tool. revert tool Hknown.
  apply known_tools_cases; intros Hc Hsized;
    unfold prescribed_call in Hc; simpl (String.eqb _ _) in Hc;
    cbv iota beta zeta in Hc; injection Hc as <-; unfold answer in Hans;
    run_present; rewrite Hans, bind_invoke_ok.
  - destruct (Hsized eq_refl) as [n Hn].
    rewrite Hn, bind_lift_ok, Hdumps. reflexivity.
  - rewrite Hdumps. reflexivity.
  - rewrite Hdumps. reflexivity.
  - rewrite Hdumps. reflexivity.
Qed.

(** X5.  The search needs a result with a length: when [search_posts]
    returns a value [len] rejects ([None], a boolean, a number), the call
    answers ["Error: object of type '...' has no len()"] although the
    collaborator did not fail, and [json.dumps] is not reached. *)
Theorem X5_search_result_without_length client (d : gmap string pyval) v :
  search_posts client
    (default PyNone (d !! "subreddit")) (default PyNone (d !! "query"))
    (default (PyInt 10) (d !! "limit"))
    (default (PyStr "relevance") (d !! "sort"))
    (default (PyStr "all") (d !! "time_filter")) = Ok v ->
  ~ sized v ->
  outcome (call_tool (Some client) "search_reddit_posts" (Some d)) =
    Ok (text_result
          ("Error: object of type '" +:+ type_name v +:+ "' has no len()")) /\
  log_lines (trace (call_tool (Some client) "search_reddit_posts" (Some d))) =
    [ "Error calling tool search_reddit_posts: object of type '"
      +:+ type_name v +:+ "' has no len()" ].
Proof.
  intros Hans Hunsized. run_present. rewrite Hans, bind_invoke_ok.
  destruct v; try (exfalso; apply Hunsized; eexists; reflexivity);
    split; reflexivity.
Qed.

(** X6.  No retry: an invocation calls the collaborator at most once,
    whatever the handle, the tool name, the arguments and the
    collaborator's answer. *)
Theorem X6_at_most_one_collaborator_call rc tool arguments :
  length (calls (trace (call_tool rc tool arguments))) <= 1.
Proof.
  destruct rc as [client|]; [|cbn; lia].
  destruct (decide (tool ∈ known_tools)) as [Hknown|Hnot].
  - destruct arguments as [d|].
    + destruct (call_tool_present_calls client tool d Hknown) as (c & _ & ->).
      cbn. lia.
    + rewrite (call_tool_absent _ _ Hknown). cbn. lia.
  - rewrite (call_tool_unknown_run _ _ _ Hnot). cbn. lia.
Qed.

(** X7.  The log and the answer agree: an invocation either logs nothing,
    or logs exactly one line ["Error calling tool {name}: {message}"] and
    then its answer is the single text ["Error: {message}"] with the same
    message. *)
Theorem X7_log_line_matches_error_text rc tool arguments :
  log_lines (trace (call_tool rc tool arguments)) = [] \/
  exists e,
    log_lines (trace (call_tool rc tool arguments)) = [error_line tool e] /\
    outcome (call_tool rc tool arguments) =
      Ok (text_result ("Error: " +:+ exn_str e)).
Proof.
  destruct rc as [client|]; [|left; reflexivity].
  unfold call_tool.
  pose proof (dispatch_quiet client tool arguments) as Hquiet.
  unfold quiet, trace in Hquiet.
  destruct (dispatch client tool arguments) as [tr [r|e]]; simpl fst in Hquiet.
  - left. exact Hquiet.
  - right. exists e. unfold try_except. rewrite on_exception_run.
    unfold trace, outcome. simpl fst. simpl snd.
    rewrite log_lines_app, Hquiet. split; reflexivity.
Qed.

(** X8.  Types and enums of the schema are advertised, not enforced: a
    value found in the mapping under a parameter of the tool's schema
    reaches the collaborator as it is, whatever it is (a string for
    [limit], a sort outside the enum, an explicit null, which is therefore
    not replaced by the default). *)
Theorem X8_present_value_forwarded_as_given client tool
    (d : gmap string pyval) param v :
  is_Some (declared tool param "type") ->
  d !! param = Some v ->
  exists c,
    calls (trace (call_tool (Some client) tool (Some d))) = [c] /\
    call_arg c param = Some v.
Proof.
  intros [ty Hty] Hv.
  apply declared_inv in Hty as (t & fields & prop & Ht & Hf & Hin & _).
  pose proof (find_tool_known _ _ Ht) as Hknown.
  destruct (call_tool_present_calls client tool d Hknown) as (c & Hc & Hcalls).
  exists c. split; [exact Hcalls|]. clear Hcalls.
  revert Ht Hc. pattern tool. revert tool Hknown.
  apply known_tools_cases; intros [= <-] Hc; injection Hf as <-;
    list_cases Hin;
    unfold prescribed_call in Hc; simpl (String.eqb _ _) in Hc;
    cbv iota beta zeta in Hc; injection Hc as <-;
    unfold call_arg; simpl (String.eqb _ _); cbv iota;
    rewrite Hv; reflexivity.
Qed.

(** X9.  Keys the schema does not name are never read: adding a key that
    is not a parameter of the tool's schema to the mapping changes neither
    the collaborator call, nor the log, nor the answer. *)
Theorem X9_unlisted_key_is_ignored rc tool (d : gmap string pyval) key v :
  declared tool key "type" = None ->
  call_tool rc tool (Some (<[key := v]> d)) = call_tool rc tool (Some d).
Proof.
  intros Hkey. destruct rc as [client|]; [|reflexivity].
  destruct (decide (tool ∈ known_tools)) as [Hknown|Hnot];
    [|rewrite !(call_tool_unknown_run _ _ _ Hnot); reflexivity].
  revert Hkey. pattern tool. revert tool Hknown.
  apply known_tools_cases; intros Hkey; unfold call_tool, dispatch, get;
    simpl (String.eqb _ _); cbv iota;
    rewrite ?lookup_insert_ne
      by (intros ->; vm_compute in Hkey; discriminate Hkey);
    reflexivity.
Qed.

(** X10.  The catalog and the dispatcher name the same tools: with the
    handle set and the mapping there, the collaborator is called exactly
    for the names [list_tools] advertises. *)
Theorem X10_dispatched_iff_advertised client tool (d : gmap string pyval) :
  is_Some (find_tool tool) <->
  exists c, calls (trace (call_tool (Some client) tool (Some d))) = [c].
Proof.
  split.
  - intros [t Ht]. apply find_tool_known in Ht.
    destruct (call_tool_present_calls client tool d Ht) as (c & _ & Hcalls).
    exists c. exact Hcalls.
  - intros [c Hcalls].
    assert (Invoke c ∈ trace (call_tool (Some client) tool (Some d))) as Hin.
    { apply elem_of_calls. rewrite Hcalls. left. }
    apply invoked_inv in Hin as (Hknown & _).
    clear Hcalls. pattern tool. revert tool Hknown.
    apply known_tools_cases; eexists; reflexivity.
Qed.

(** X11.  No answer carries the error status: also a caught fault, the
    unknown-tool answer and the not-initialized answer are returned with
    [isError] left at [False]. *)
Theorem X11_error_status_is_never_set rc tool arguments :
  exists r,
    outcome (call_tool rc tool arguments) = Ok r /\ isError r = false.
Proof.
  destruct rc as [client|]; [|eexists; split; reflexivity].
  unfold call_tool.
  pose proof (text_shaped_dispatch client tool arguments) as Hshape.
  unfold text_shaped, outcome in Hshape.
  destruct (dispatch client tool arguments) as [tr [r|e]]; simpl in Hshape.
  - destruct Hshape as (t & ->). eexists. split; reflexivity.
  - eexists. split; reflexivity.
Qed.

End Extras.

(** ** The catalog against itself *)

(** X12.  The schemas of the catalog are consistent with themselves: a
    required parameter is a declared parameter and has no default; a
    declared default lies within the declared minimum and maximum, and is
    one of the declared enum values. *)
Theorem X12_catalog_schemas_are_consistent tool param :
  (param ∈ required_of tool ->
   is_Some (declared tool param "type") /\
   declared tool param "default" = None) /\
  (forall dv,
     declared tool param "default" = Some dv ->
     (forall lo hi,
        declared tool param "minimum" = Some (PyInt lo) ->
        declared tool param "maximum" = Some (PyInt hi) ->
        exists z, dv = PyInt z /\ (lo <= z <= hi)%Z) /\
     (forall items,
        declared tool param "enum" = Some (PyList items) -> dv ∈ items)).
Proof.
  split.
  - intros Hreq.
    apply required_of_cases in Hreq
      as [(-> & [->| ->])|[(-> & ->)|[(-> & ->)|(-> & ->)]]];
      (split; [eexists; reflexivity|reflexivity]).
  - intros dv Hdv.
    apply declared_default_cases in Hdv
      as [(-> & -> & ->)|[(-> & -> & ->)|[(-> & -> & ->)|(-> & -> & ->)]]];
      split.
    all: try (intros lo hi Hlo Hhi; vm_compute in Hlo, Hhi;
              first [ discriminate Hlo
                    | injection Hlo as <-; injection Hhi as <-;
                      eexists; split; [reflexivity|lia] ]).
    all: intros items Hitems; vm_compute in Hitems;
      first [ discriminate Hitems
            | injection Hitems as <-; repeat constructor ].
Qed.

(** ** Start-up *)

Section StartupProperties.
Variable Config : Type.
Variable from_env : result Config.
Variable new_client : Config -> result RedditClient.

Local Abbreviation init :=
  (Startup.initialize_reddit_client Config from_env new_client).

(** X13.  When the configuration cannot be loaded, start-up does not
    raise: it leaves the handle unset, writes one ERROR record with the
    fault's message, and never calls the client constructor. *)
Theorem X13_config_fault_leaves_handle_unset rc0 e :
  from_env = Raise e ->
  Startup.raised (init rc0) = Ok tt /\
  Startup.handle (init rc0) = None /\
  Startup.records (Startup.events (init rc0)) =
    [ (Startup.ERROR, "Failed to initialize Reddit client: " +:+ exn_str e) ] /\
  Startup.constructions (Startup.events (init rc0)) = [].
Proof.
  intros Henv. unfold Startup.initialize_reddit_client,
    Startup.st_try_except, Startup.st_bind, Startup.RedditConfig_from_env.
  rewrite Henv. repeat split.
Qed.

(** X14.  When the configuration loads and the client constructor raises,
    start-up does not raise either: the handle is left unset and one ERROR
    record with the fault's message is written. *)
Theorem X14_constructor_fault_leaves_handle_unset rc0 config e :
  from_env = Ok config ->
  new_client config = Raise e ->
  Startup.raised (init rc0) = Ok tt /\
  Startup.handle (init rc0) = None /\
  Startup.records (Startup.events (init rc0)) =
    [ (Startup.ERROR, "Failed to initialize Reddit client: " +:+ exn_str e) ] /\
  Startup.constructions (Startup.events (init rc0)) = [config].
Proof.
  intros Henv Hnew. unfold Startup.initialize_reddit_client,
    Startup.st_try_except, Startup.st_bind, Startup.RedditConfig_from_env,
    Startup.RedditClient_new.
  rewrite Henv, Hnew. repeat split.
Qed.

(** X15.  When the configuration loads and the client is constructed,
    start-up sets the handle to that client, writes one INFO record and no
    ERROR record, and has called the constructor once, with the loaded
    configuration. *)
Theorem X15_startup_success_sets_handle rc0 config client :
  from_env = Ok config ->
  new_client config = Ok client ->
  Startup.raised (init rc0) = Ok tt /\
  Startup.handle (init rc0) = Some client /\
  Startup.records (Startup.events (init rc0)) =
    [ (Startup.INFO,
       "Reddit client initialized successfully in read-only mode") ] /\
  Startup.constructions (Startup.events (init rc0)) = [config].
Proof.
  intros Henv Hnew. unfold Startup.initialize_reddit_client,
    Startup.st_try_except, Startup.st_bind, Startup.RedditConfig_from_env,
    Startup.RedditClient_new.
  rewrite Henv, Hnew. repeat split.
Qed.

(** X16.  After start-up the handle is unset exactly when loading the
    configuration or constructing the client raised, whatever the handle
    was before: a failed re-initialization discards a working client. *)
Theorem X16_handle_unset_iff_startup_failed rc0 :
  Startup.handle (init rc0) = None <->
  (exists e, from_env = Raise e) \/
  (exists config e, from_env = Ok config /\ new_client config = Raise e).
Proof.
  unfold Startup.initialize_reddit_client,
    Startup.st_try_except, Startup.st_bind, Startup.RedditConfig_from_env,
    Startup.RedditClient_new.
  destruct from_env as [config|e]; [destruct (new_client config) as [client|e] eqn:Hnew|];
    cbn; split.
  - discriminate.
  - intros [(e & He)|(config' & e & Hc & He)]; [discriminate He|].
    injection Hc as <-. rewrite Hnew in He. discriminate He.
  - intros _. right. exists config, e. split; [reflexivity|exact Hnew].
  - reflexivity.
  - intros _. left. exists e. reflexivity.
  - reflexivity.
Qed.

(** X17.  Start-up and dispatch together: after a start-up that failed,
    in the configuration or in the constructor, every call, whatever the
    tool name and the arguments, is answered with the not-initialized text
    and emits no event. *)
Theorem X17_failed_startup_answers_not_initialized `{Runtime}
    rc0 e tool arguments :
  (from_env = Raise e \/
   exists config, from_env = Ok config /\ new_client config = Raise e) ->
  call_tool (Startup.handle (init rc0)) tool arguments =
  ([], Ok (text_result not_initialized_text)).
Proof.
  intros Hfailed.
  assert (Startup.handle (init rc0) = None) as ->; [|reflexivity].
  unfold Startup.initialize_reddit_client,
    Startup.st_try_except, Startup.st_bind, Startup.RedditConfig_from_env,
    Startup.RedditClient_new.
  destruct Hfailed as [->|(config & -> & ->)]; reflexivity.
Qed.

End StartupProperties.

(** ** The further properties at concrete inputs *)

(** X1 at the post [abc123], of which the collaborator knows nothing. *)
Lemma X1_witness :
  @call_tool Sample.runtime (Some Sample.empty_client)
    "get_reddit_post_details" (Some Fixtures.post_abc123) =
  ([Invoke (GetPostDetails (PyStr "abc123"))],
   Ok (text_result ("Post details for abc123:" +:+ nl +:+ nl +:+ "{}"))).
Proof.
  apply (@X1_post_details_success_text Sample.runtime Sample.empty_client
           Fixtures.post_abc123 (PyDict []) "{}"); reflexivity.
Defined.

(** X2 at the subreddit [python]. *)
Lemma X2_witness :
  @call_tool Sample.runtime (Some Sample.empty_client)
    "get_subreddit_info" (Some Sample.hot_python) =
  ([Invoke (GetSubredditInfo (PyStr "python"))],
   Ok (text_result
         ("Subreddit information for r/python:" +:+ nl +:+ nl +:+ "{}"))).
Proof.
  apply (@X2_subreddit_info_success_text Sample.runtime Sample.empty_client
           Sample.hot_python (PyDict []) "{}"); reflexivity.
Defined.

(** X3 at the subreddit [python], with a collaborator that returns [None]:
    the value has no length and is rendered all the same. *)
Lemma X3_witness :
  @call_tool Sample.runtime (Some Fixtures.none_client)
    "get_hot_reddit_posts" (Some Sample.hot_python) =
  ([Invoke (GetHotPosts (PyStr "python") (PyInt 10))],
   Ok (text_result ("Hot posts from r/python:" +:+ nl +:+ nl +:+ "null"))).
Proof.
  apply (@X3_hot_posts_success_text Sample.runtime Fixtures.none_client
           Sample.hot_python PyNone "null"); reflexivity.
Defined.

(** X4 at the hot posts of [python], with a serialiser that gives up. *)
Lemma X4_witness :
  @call_tool Fixtures.failing_runtime (Some Sample.empty_client)
    "get_hot_reddit_posts" (Some Sample.hot_python) =
  ([Invoke (GetHotPosts (PyStr "python") (PyInt 10));
    LogError
      "Error calling tool get_hot_reddit_posts: Circular reference detected"],
   Ok (text_result "Error: Circular reference detected")).
Proof.
  apply (@X4_serialization_fault_is_caught Fixtures.failing_runtime
           Sample.empty_client "get_hot_reddit_posts" (Some Sample.hot_python)
           (GetHotPosts (PyStr "python") (PyInt 10)) (PyList [])
           Fixtures.circular).
  - vm_compute. constructor.
  - reflexivity.
  - discriminate.
  - reflexivity.
Defined.

(** X5 at the search for [foo] in [r/test], with a collaborator that
    returns [None]. *)
Lemma X5_witness :
  outcome (@call_tool Sample.runtime (Some Fixtures.none_client)
             "search_reddit_posts" (Some Sample.search_foo)) =
    Ok (text_result "Error: object of type 'NoneType' has no len()") /\
  log_lines (trace (@call_tool Sample.runtime (Some Fixtures.none_client)
                      "search_reddit_posts" (Some Sample.search_foo))) =
    [ "Error calling tool search_reddit_posts: object of type 'NoneType' has no len()" ].
Proof.
  apply (@X5_search_result_without_length Sample.runtime Fixtures.none_client
           Sample.search_foo PyNone).
  - reflexivity.
  - intros [n Hn]. discriminate Hn.
Defined.

(** X8 at a search whose [sort] is outside the enum. *)
Lemma X8_witness :
  exists c,
    calls (trace (@call_tool Sample.runtime (Some Sample.empty_client)
                    "search_reddit_posts"
                    (Some Fixtures.python_sorted_badly))) = [c] /\
    call_arg c "sort" = Some (PyStr "upside-down").
Proof.
  apply (@X8_present_value_forwarded_as_given Sample.runtime
           Sample.empty_client "search_reddit_posts"
           Fixtures.python_sorted_badly "sort" (PyStr "upside-down")).
  - eexists. reflexivity.
  - vm_compute. reflexivity.
Defined.

(** X9 at [get_subreddit_info], which has no [limit]. *)
Lemma X9_witness :
  @call_tool Sample.runtime (Some Sample.empty_client) "get_subreddit_info"
    (Some (<["limit" := PyInt 5]> Sample.hot_python)) =
  @call_tool Sample.runtime (Some Sample.empty_client) "get_subreddit_info"
    (Some Sample.hot_python).
Proof.
  apply (@X9_unlisted_key_is_ignored Sample.runtime (Some Sample.empty_client)
           "get_subreddit_info" Sample.hot_python "limit" (PyInt 5)).
  reflexivity.
Defined.

(** X12 at [limit] of [get_hot_reddit_posts]: the default 10 lies between
    the minimum 1 and the maximum 100. *)
Lemma X12_witness : exists z, PyInt 10 = PyInt z /\ (1 <= z <= 100)%Z.
Proof.
  apply (proj1 (proj2 (X12_catalog_schemas_are_consistent
                         "get_hot_reddit_posts" "limit")
                  (PyInt 10) eq_refl) 1%Z 100%Z); reflexivity.
Defined.

(** X13 with the credentials missing, over a handle that was set. *)
Lemma X13_witness :
  Startup.raised
    (Startup.initialize_reddit_client string
       (Raise Fixtures.missing_credentials) (fun _ => Ok Sample.empty_client)
       (Some Sample.empty_client)) = Ok tt /\
  Startup.handle
    (Startup.initialize_reddit_client string
       (Raise Fixtures.missing_credentials) (fun _ => Ok Sample.empty_client)
       (Some Sample.empty_client)) = None /\
  Startup.records
    (Startup.events
       (Startup.initialize_reddit_client string
          (Raise Fixtures.missing_credentials)
          (fun _ => Ok Sample.empty_client) (Some Sample.empty_client))) =
    [ (Startup.ERROR,
       "Failed to initialize Reddit client: Missing required Reddit API configuration") ] /\
  Startup.constructions
    (Startup.events
       (Startup.initialize_reddit_client string
          (Raise Fixtures.missing_credentials)
          (fun _ => Ok Sample.empty_client) (Some Sample.empty_client))) = [].
Proof.
  apply (X13_config_fault_leaves_handle_unset string
           (Raise Fixtures.missing_credentials)
           (fun _ => Ok Sample.empty_client) (Some Sample.empty_client)
           Fixtures.missing_credentials).
  reflexivity.
Defined.

(** X14 with credentials the constructor refuses. *)
Lemma X14_witness :
  Startup.handle
    (Startup.initialize_reddit_client string (Ok "credentials")
       (fun _ => Raise Sample.not_found) (Some Sample.empty_client)) = None.
Proof.
  apply (X14_constructor_fault_leaves_handle_unset string (Ok "credentials")
           (fun _ => Raise Sample.not_found) (Some Sample.empty_client)
           "credentials" Sample.not_found); reflexivity.
Defined.

(** X15 with credentials the constructor accepts, from an unset handle. *)
Lemma X15_witness :
  Startup.handle
    (Startup.initialize_reddit_client string (Ok "credentials")
       (fun _ => Ok Sample.empty_client) None) = Some Sample.empty_client.
Proof.
  apply (X15_startup_success_sets_handle string (Ok "credentials")
           (fun _ => Ok Sample.empty_client) None
           "credentials" Sample.empty_client); reflexivity.
Defined.

(** X17 with the credentials missing, then a search. *)
Lemma X17_witness :
  @call_tool Sample.runtime
    (Startup.handle
       (Startup.initialize_reddit_client string
          (Raise Fixtures.missing_credentials)
          (fun _ => Ok Sample.empty_client) None))
    "search_reddit_posts" (Some Sample.search_foo) =
  ([], Ok (text_result not_initialized_text)).
Proof.
  apply (@X17_failed_startup_answers_not_initialized string
           (Raise Fixtures.missing_credentials)
           (fun _ => Ok Sample.empty_client) Sample.runtime None
           Fixtures.missing_credentials "search_reddit_posts"
           (Some Sample.search_foo)).
  left. reflexivity.
Defined.
